(** * Clipboard facade of [mod.ts]: a shallow embedding and its properties

    The module detects the operating system, picks a pair of external
    commands from a registry, and pipes text through them.  Everything the
    module asks of the Deno runtime (spawning a process, its streams, the
    console, the text codecs) is a field of a [Host]; the module's own code
    is written in a small state-and-exception monad over a [World] that
    records the host calls made so far and the module's exported bindings. *)

From Stdlib Require Import ZArith Ascii String List Lia.
From stdpp Require Import base option strings gmap fin_maps.
Import ListNotations.

Local Open Scope Z_scope.

(** ** JavaScript values the module handles *)

(** [export type OperatingSystem] (lines 3-11): a closed union of eight
    string literals. *)
Inductive OperatingSystem :=
  | windows | linux | darwin | freebsd | netbsd | aix | solaris | illumos.

(** The string each member of the union is at run time; it is the key used
    to index the registry object and the text interpolated in messages. *)
Definition os_name (os : OperatingSystem) : string :=
  match os with
  | windows => "windows"
  | linux => "linux"
  | darwin => "darwin"
  | freebsd => "freebsd"
  | netbsd => "netbsd"
  | aix => "aix"
  | solaris => "solaris"
  | illumos => "illumos"
  end.

#[global] Instance OperatingSystem_eq_dec : EqDecision OperatingSystem.
Proof. solve_decision. Defined.

(** What a [throw] carries, as far as a [catch] of this module can tell:
    either an [Error] instance (of any subclass: [name] is its class name)
    with its [message], or some other value, known by its [String(...)]
    rendering. *)
Inductive JsThrown :=
  | JsError (name : string) (message : string)
  | JsNonError (rendering : string).

(** Completion of a computation: a value, or an exception. *)
Inductive Outcome (A : Type) :=
  | Returned (a : A)
  | Threw (e : JsThrown).
Arguments Returned {A} a.
Arguments Threw {A} e.

(** ** The Deno process interface *)

Inductive Stdio := piped | null | inherit.

(** [new Deno.Command(program, { args, stdin, stdout, stderr })].  The first
    argument is [array[0]], which is [undefined] for an empty array, hence
    the option; a stream option that the source leaves out is [None]. *)
Record Command := {
  program : option string;
  args : list string;
  stdin : option Stdio;
  stdout : option Stdio;
  stderr : option Stdio
}.

(** The fields of [Deno.CommandOutput] and [Deno.CommandStatus]. *)
Record CommandOutput := {
  code : Z;
  out_stdout : list Byte.byte;
  out_stderr : list Byte.byte
}.

Record CommandStatus := {
  status_success : bool;
  status_code : Z
}.

(** How a spawned child answers each request made of it. *)
Record ChildProcess := {
  stdin_getWriter : Outcome unit;
  writer_write : list Byte.byte -> Outcome unit;
  writer_close : Outcome unit;
  child_status : Outcome CommandStatus
}.

(** The environment.  [command_output n c] is what [c.output()] settles to
    when it is the [n]-th process the module starts, [command_spawn n c]
    what [c.spawn()] does; two runs of the same command may differ.
    [text_encode] and [text_decode] are [encoder.encode] and
    [decoder.decode] of the module-level [TextEncoder] and [TextDecoder]
    (lines 46-47: UTF-8, not fatal, so both are total). *)
Record Host := {
  build_os : OperatingSystem;
  text_encode : string -> list Byte.byte;
  text_decode : list Byte.byte -> string;
  command_output : nat -> Command -> Outcome CommandOutput;
  command_spawn : nat -> Command -> Outcome ChildProcess
}.

(** ** World: the observable history and the module's bindings *)

Inductive ConsoleLevel := console_log | console_warn | console_error.

Inductive Event :=
  | EvOutput (c : Command)
  | EvSpawn (c : Command)
  | EvGetWriter
  | EvWrite (bytes : list Byte.byte)
  | EvClose
  | EvStatus
  | EvConsole (level : ConsoleLevel) (text : string).

(** The fields of [class ClipboardImplementation] (lines 49-65); the
    constructor stores its four arguments.  An omitted [postProcess] is
    [undefined], here [None]. *)
Record ClipboardImplementation := new_ClipboardImplementation {
  os : OperatingSystem;
  readCommand : list string;
  writeCommand : list string;
  postProcess : option (string -> string)
}.

(** [type ClipboardMap] (lines 42-44): an object whose optional keys are
    operating-system names. *)
Abbreviation ClipboardMap := (gmap string ClipboardImplementation).

(** The private field of [class Clipboard] (line 154). *)
Record Clipboard := new_Clipboard { impl : ClipboardImplementation }.

(** The three [let] bindings exported at line 151.  [readText] and
    [writeText] hold methods bound to a facade, so each is represented by
    the facade it is bound to; [None] is [undefined]. *)
Record Exports := {
  clipboard : option Clipboard;
  readText : option Clipboard;
  writeText : option Clipboard
}.

Record World := {
  started : nat;
  trace : list Event;
  exports : Exports
}.

Definition no_exports : Exports :=
  {| clipboard := None; readText := None; writeText := None |}.

Definition initial_world : World :=
  {| started := 0; trace := []; exports := no_exports |}.

(** ** The monad of module code *)

Definition M (A : Type) : Type := World -> Outcome A * World.

#[global] Instance M_ret : MRet M := fun A a w => (Returned a, w).

#[global] Instance M_bind : MBind M := fun A B k m w =>
  match m w with
  | (Returned a, w') => k a w'
  | (Threw e, w') => (Threw e, w')
  end.

Definition throw {A} (e : JsThrown) : M A := fun w => (Threw e, w).

(** [try { body } catch (error) { handler }]. *)
Definition try_catch {A} (body : M A) (handler : JsThrown -> M A) : M A :=
  fun w =>
    match body w with
    | (Returned a, w') => (Returned a, w')
    | (Threw e, w') => handler e w'
    end.

Definition emit (ev : Event) (w : World) : World :=
  {| started := started w; trace := trace w ++ [ev]; exports := exports w |}.

Definition start (w : World) : World :=
  {| started := S (started w); trace := trace w; exports := exports w |}.

(** A request whose answer the host has already fixed. *)
Definition request {A} (ev : Event) (answer : Outcome A) : M A :=
  fun w => (answer, emit ev w).

Definition set_exports (e : Exports) : M unit :=
  fun w =>
    (Returned tt, {| started := started w; trace := trace w; exports := e |}).

Definition get_exports : M Exports := fun w => (Returned (exports w), w).

(** ** Text *)

Definition CR : ascii := ascii_of_nat 13.
Definition LF : ascii := ascii_of_nat 10.

(** [data.replace(/\r/g, replacement)] with the empty replacement: the
    global search visits every index from the left, drops a matching
    character and copies any other. *)
Fixpoint replace_all_CR (data : string) : string :=
  match data with
  | EmptyString => EmptyString
  | String c rest =>
      if Ascii.eqb c CR then replace_all_CR rest
      else String c (replace_all_CR rest)
  end.

(** [data.replace(/\n$/, replacement)] with the empty replacement: no [g]
    and no [m] flag, so the first index where a line feed is followed by
    the end of the input is the only one replaced. *)
Fixpoint replace_LF_at_end (data : string) : string :=
  match data with
  | EmptyString => EmptyString
  | String c rest =>
      match rest with
      | EmptyString =>
          if Ascii.eqb c LF then EmptyString else String c EmptyString
      | String _ _ => String c (replace_LF_at_end rest)
      end
  end.

(** The arrow function of line 132. *)
Definition windows_postProcess (data : string) : string :=
  replace_LF_at_end (replace_all_CR data).

(** [error instanceof Error ? error.message : String(error)]: the text
    both [catch] blocks interpolate. *)
Definition cause (error : JsThrown) : string :=
  match error with
  | JsError _ message => message
  | JsNonError rendering => rendering
  end.

Section Program.

Variable h : Host.

(** [await command.output()]: the process is started, and the promise
    settles with its collected output or rejects. *)
Definition Command_output (c : Command) : M CommandOutput :=
  fun w => (command_output h (started w) c, start (emit (EvOutput c) w)).

(** [command.spawn()]. *)
Definition Command_spawn (c : Command) : M ChildProcess :=
  fun w => (command_spawn h (started w) c, start (emit (EvSpawn c) w)).

Definition console (level : ConsoleLevel) (text : string) : M unit :=
  request (EvConsole level text) (Returned tt).

(** The conditional expression of lines 16-27. *)
Definition checkCommand (command : string) : Command :=
  if decide (build_os h = windows)
  then {| program := Some "where"; args := [command];
          stdin := None; stdout := Some null; stderr := Some null |}
  else {| program := Some "which"; args := [command];
          stdin := None; stdout := Some null; stderr := Some null |}.

(** [commandExists] (lines 14-34). *)
Definition commandExists (command : string) : M bool :=
  try_catch
    (o ← Command_output (checkCommand command);
     mret (code o =? 0))
    (fun _ => mret false).

(** The [Deno.Command] built at lines 68-72: [readCommand[0]] and
    [readCommand.slice(1)].  Building it starts nothing. *)
Definition readText_command (this : ClipboardImplementation) : Command :=
  {| program := head (readCommand this); args := tail (readCommand this);
     stdin := None; stdout := Some piped; stderr := Some piped |}.

(** [ClipboardImplementation.readText] (lines 67-90). *)
Definition ClipboardImplementation_readText
    (this : ClipboardImplementation) : M string :=
  let command := readText_command this in
  try_catch
    (o ← Command_output command;
     let text := text_decode h (out_stdout o) in
     let text :=
       match postProcess this with
       | Some f => f text
       | None => text
       end in
     mret text)
    (fun error =>
       match error with
       | JsError _ message =>
           throw (JsError "Error" ("Failed to read from clipboard: " +:+ message))
       | JsNonError rendering =>
           throw (JsError "Error" ("Failed to read from clipboard: " +:+ rendering))
       end).

(** The [try] block of [writeText] (lines 100-104). *)
Definition writeText_try (command : Command) (data : string) : M unit :=
  child ← Command_spawn command;
  request EvGetWriter (stdin_getWriter child);;
  request (EvWrite (text_encode h data))
          (writer_write child (text_encode h data));;
  request EvClose (writer_close child);;
  request EvStatus (child_status child);;
  mret tt.

(** The [Deno.Command] built at lines 93-97. *)
Definition writeText_command (this : ClipboardImplementation) : Command :=
  {| program := head (writeCommand this); args := tail (writeCommand this);
     stdin := Some piped; stdout := None; stderr := Some piped |}.

(** [ClipboardImplementation.writeText] (lines 92-112). *)
Definition ClipboardImplementation_writeText
    (this : ClipboardImplementation) (data : string) : M unit :=
  let command := writeText_command this in
  try_catch
    (writeText_try command data)
    (fun error =>
       match error with
       | JsError _ message =>
           throw (JsError "Error" ("Failed to read from clipboard: " +:+ message))
       | JsNonError rendering =>
           throw (JsError "Error" ("Failed to read from clipboard: " +:+ rendering))
       end).

(** The object literal of lines 117-134, given the values the two awaited
    probes produced. *)
Definition implementations_object (xsel_for_read xsel_for_write : bool)
    : ClipboardMap :=
  <["linux" := new_ClipboardImplementation linux
      (if xsel_for_read
       then ["xsel"; "-b"; "-o"]
       else ["xclip"; "-selection"; "clipboard"; "-o"])
      (if xsel_for_write
       then ["xsel"; "-b"; "-i"]
       else ["xclip"; "-selection"; "clipboard"; "-i"])
      None]>
  (<["darwin" := new_ClipboardImplementation darwin
       ["pbpaste"] ["pbcopy"] None]>
   (<["windows" := new_ClipboardImplementation windows
        ["powershell"; "-noprofile"; "-command"; "Get-Clipboard"]
        ["powershell"; "-noprofile"; "-command"; "$input|Set-Clipboard"]
        (Some windows_postProcess)]>
    ∅)).

(** [getImplementations] (lines 116-135).  The properties of the literal
    are evaluated in order and the arguments of the first constructor call
    from left to right, so [commandExists("xsel")] is awaited twice, once
    for each command, before anything else. *)
Definition getImplementations : M ClipboardMap :=
  xsel_for_read ← commandExists "xsel";
  xsel_for_write ← commandExists "xsel";
  mret (implementations_object xsel_for_read xsel_for_write).

(** [Clipboard.constructor] (lines 156-162). *)
Definition Clipboard_constructor
    (os : OperatingSystem) (implementations : ClipboardMap) : M Clipboard :=
  match implementations !! os_name os with
  | None => throw (JsError "Error" ("Clipboard: unsupported OS: " +:+ os_name os))
  | Some impl => mret (new_Clipboard impl)
  end.

(** [Clipboard.readText] and [Clipboard.writeText] (lines 164-170). *)
Definition Clipboard_readText (this : Clipboard) : M string :=
  ClipboardImplementation_readText (impl this).

Definition Clipboard_writeText (this : Clipboard) (data : string) : M unit :=
  ClipboardImplementation_writeText (impl this) data.

(** Assignments to the exported bindings (lines 146-148). *)
Definition assign_clipboard (c : Clipboard) : M unit :=
  e ← get_exports;
  set_exports
    {| clipboard := Some c; readText := readText e; writeText := writeText e |}.

Definition assign_readText (c : Clipboard) : M unit :=
  e ← get_exports;
  set_exports
    {| clipboard := clipboard e; readText := Some c; writeText := writeText e |}.

Definition assign_writeText (c : Clipboard) : M unit :=
  e ← get_exports;
  set_exports
    {| clipboard := clipboard e; readText := readText e; writeText := Some c |}.

(** The body of the async arrow function of lines 141-149. *)
Definition initialize : M unit :=
  implementations ← getImplementations;
  match implementations !! os_name (build_os h) with
  | None =>
      console console_warn
        ("Clipboard support not available for " +:+ os_name (build_os h))
  | Some _ => mret tt
  end;;
  c ← Clipboard_constructor (build_os h) implementations;
  assign_clipboard c;;
  assign_readText c;;
  assign_writeText c.

(** Evaluation of the module (lines 137-151).  Calling the async arrow
    function yields a promise and the statement drops it, so an exception
    inside [initialize] settles that promise as rejected and never reaches
    the top level: the evaluation itself completes, and its value here is
    how the dropped promise settles. *)
Definition module_body : M (Outcome unit) :=
  fun w => let '(settled, w') := initialize w in (Returned settled, w').

(** A call [readText()] or [writeText(data)] by an importer: the binding
    is read when the call is made, and calling [undefined] is a
    [TypeError]. *)
Definition call_readText : M string :=
  e ← get_exports;
  match readText e with
  | None => throw (JsError "TypeError" "readText is not a function")
  | Some c => Clipboard_readText c
  end.

Definition call_writeText (data : string) : M unit :=
  e ← get_exports;
  match writeText e with
  | None => throw (JsError "TypeError" "writeText is not a function")
  | Some c => Clipboard_writeText c data
  end.

End Program.

(** ** A sample host

    A machine with the given operating system and installed programs, whose
    clipboard utilities print [clip] and accept any input.  The path search
    ([which] or [where]) exits with 0 for an installed program and with 1
    otherwise; starting a program that is not installed is rejected with
    [NotFound].  Its codecs read bytes as 7-bit characters, on which UTF-8
    is the identity. *)

Definition installed_in (installed : list string) (p : string) : bool :=
  existsb (String.eqb p) installed.

Definition not_found (p : string) : JsThrown :=
  JsError "NotFound" ("Failed to spawn '" +:+ p +:+ "': entity not found").

Definition obedient_child : ChildProcess :=
  {| stdin_getWriter := Returned tt;
     writer_write := fun _ => Returned tt;
     writer_close := Returned tt;
     child_status := Returned {| status_success := true; status_code := 0 |} |}.

Definition is_path_search (p : string) : bool :=
  String.eqb p "which" || String.eqb p "where".

Definition sample_output (installed : list string) (clip : list Byte.byte)
    (c : Command) : Outcome CommandOutput :=
  match program c with
  | None => Threw (JsError "TypeError" "expected a string")
  | Some p =>
      if is_path_search p then
        match args c with
        | [q] =>
            Returned {| code := if installed_in installed q then 0 else 1;
                        out_stdout := []; out_stderr := [] |}
        | _ => Returned {| code := 2; out_stdout := []; out_stderr := [] |}
        end
      else if installed_in installed p then
        Returned {| code := 0; out_stdout := clip; out_stderr := [] |}
      else Threw (not_found p)
  end.

Definition sample_spawn (installed : list string) (c : Command)
    : Outcome ChildProcess :=
  match program c with
  | None => Threw (JsError "TypeError" "expected a string")
  | Some p =>
      if installed_in installed p then Returned obedient_child
      else Threw (not_found p)
  end.

Definition sample_host (os : OperatingSystem) (installed : list string)
    (clip : list Byte.byte) : Host :=
  {| build_os := os;
     text_encode := list_byte_of_string;
     text_decode := string_of_list_byte;
     command_output := fun _ => sample_output installed clip;
     command_spawn := fun _ => sample_spawn installed |}.

(** A second host: [xclip] is installed but cannot reach a display, so it
    prints nothing, complains on standard error and exits with 1; its
    standard input closes early, so writing to it fails. *)
Definition no_display_output (c : Command) : Outcome CommandOutput :=
  match program c with
  | Some "xclip" =>
      Returned {| code := 1; out_stdout := [];
                  out_stderr := list_byte_of_string "Error: Can't open display" |}
  | _ => sample_output ["xclip"] [] c
  end.

Definition broken_pipe : JsThrown :=
  JsError "BrokenPipe" "Broken pipe (os error 32)".

Definition deaf_child : ChildProcess :=
  {| stdin_getWriter := Returned tt;
     writer_write := fun _ => Threw broken_pipe;
     writer_close := Returned tt;
     child_status := Returned {| status_success := false; status_code := 1 |} |}.

Definition no_display_host : Host :=
  {| build_os := linux;
     text_encode := list_byte_of_string;
     text_decode := string_of_list_byte;
     command_output := fun _ => no_display_output;
     command_spawn := fun _ _ => Returned deaf_child |}.

(** A third host, on which [xsel] appears between the two probes. *)
Definition late_xsel_host : Host :=
  {| build_os := linux;
     text_encode := list_byte_of_string;
     text_decode := string_of_list_byte;
     command_output := fun n =>
       sample_output (if Nat.eqb n 0 then ["xclip"] else ["xsel"; "xclip"]) [];
     command_spawn := fun _ => sample_spawn ["xsel"; "xclip"] |}.

(** A fourth host: [xsel] and [xclip] are installed throughout, but the
    first process the module starts cannot be spawned. *)
Definition flaky_start_host : Host :=
  {| build_os := linux;
     text_encode := list_byte_of_string;
     text_decode := string_of_list_byte;
     command_output := fun n c =>
       if Nat.eqb n 0
       then Threw (JsError "Error" "Resource temporarily unavailable (os error 11)")
       else sample_output ["xsel"; "xclip"] [] c;
     command_spawn := fun _ => sample_spawn ["xsel"; "xclip"] |}.

(** ** Vocabulary of the statements *)

(** What a probe started as the [n]-th process reports. *)
Definition probe_result (h : Host) (n : nat) (command : string) : bool :=
  match command_output h n (checkCommand h command) with
  | Returned o => code o =? 0
  | Threw _ => false
  end.

Definition not_CR (c : ascii) : bool := negb (Ascii.eqb c CR).

(** The operating systems of the union that the registry has no key for. *)
Definition unregistered : list OperatingSystem :=
  [freebsd; netbsd; aix; solaris; illumos].

Definition registered : list OperatingSystem := [linux; darwin; windows].

(** The error of line 159. *)
Definition unsupported_OS_error (os : OperatingSystem) : JsThrown :=
  JsError "Error" ("Clipboard: unsupported OS: " +:+ os_name os).

(** The error both [catch] blocks (lines 83-89 and 105-111) throw. *)
Definition clipboard_failure (error : JsThrown) : JsThrown :=
  JsError "Error" ("Failed to read from clipboard: " +:+ cause error).

(** Calls an importer makes after the module is loaded, and what each
    ends with. *)
Inductive Call :=
  | CallReadText
  | CallWriteText (data : string).

Inductive CallOutcome :=
  | ReadOutcome (r : Outcome string)
  | WriteOutcome (r : Outcome unit).

Definition run_call (h : Host) (c : Call) (w : World) : CallOutcome * World :=
  match c with
  | CallReadText =>
      let '(r, w') := call_readText h w in (ReadOutcome r, w')
  | CallWriteText data =>
      let '(r, w') := call_writeText h data w in (WriteOutcome r, w')
  end.

Fixpoint run_calls (h : Host) (cs : list Call) (w : World)
    : list CallOutcome * World :=
  match cs with
  | [] => ([], w)
  | c :: cs' =>
      let '(r, w') := run_call h c w in
      let '(rs, w'') := run_calls h cs' w' in
      (r :: rs, w'')
  end.

Definition is_console (ev : Event) : bool :=
  match ev with
  | EvConsole _ _ => true
  | _ => false
  end.

(** The Linux entry of the registry, given what the two probes said. *)
Definition linux_entry (xsel_for_read xsel_for_write : bool)
    : ClipboardImplementation :=
  new_ClipboardImplementation linux
    (if xsel_for_read
     then ["xsel"; "-b"; "-o"]
     else ["xclip"; "-selection"; "clipboard"; "-o"])
    (if xsel_for_write
     then ["xsel"; "-b"; "-i"]
     else ["xclip"; "-selection"; "clipboard"; "-i"])
    None.

(** The five requests of a complete write, in the order made. *)
Definition write_requests (h : Host) (this : ClipboardImplementation)
    (data : string) : list Event :=
  [EvSpawn (writeText_command this); EvGetWriter;
   EvWrite (text_encode h data); EvClose; EvStatus].

(** The text of the warning of line 144. *)
Definition warning_text (os : OperatingSystem) : string :=
  "Clipboard support not available for " +:+ os_name os.

(** [haystack.includes(needle)]. *)
Fixpoint includes (needle haystack : string) : bool :=
  String.prefix needle haystack ||
  match haystack with
  | EmptyString => false
  | String _ rest => includes needle rest
  end.

(** What calling an export that is still [undefined] ends with. *)
Definition not_a_function (c : Call) : CallOutcome :=
  match c with
  | CallReadText =>
      ReadOutcome (Threw (JsError "TypeError" "readText is not a function"))
  | CallWriteText _ =>
      WriteOutcome (Threw (JsError "TypeError" "writeText is not a function"))
  end.

(** ** Vocabulary of the further properties *)

(** The requests that start a process. *)
Definition is_process_event (ev : Event) : bool :=
  match ev with
  | EvOutput _ | EvSpawn _ => true
  | _ => false
  end.

(** The exports as lines 146-148 leave them. *)
Definition bound_exports (c : Clipboard) : Exports :=
  {| clipboard := Some c; readText := Some c; writeText := Some c |}.

(** What a call threw, if it threw. *)
Definition thrown_error (r : CallOutcome) : option JsThrown :=
  match r with
  | ReadOutcome (Threw e) | WriteOutcome (Threw e) => Some e
  | ReadOutcome (Returned _) | WriteOutcome (Returned _) => None
  end.

(** The [Deno.Command] a facade built for [os] runs to read, given what
    the first probe said, and to write, given what the second said: the
    first element of the registered array is the program, the others its
    arguments. *)
Definition system_read_command (os : OperatingSystem) (xsel : bool)
    : Command :=
  match os with
  | darwin =>
      {| program := Some "pbpaste"; args := [];
         stdin := None; stdout := Some piped; stderr := Some piped |}
  | windows =>
      {| program := Some "powershell";
         args := ["-noprofile"; "-command"; "Get-Clipboard"];
         stdin := None; stdout := Some piped; stderr := Some piped |}
  | _ =>
      if xsel
      then {| program := Some "xsel"; args := ["-b"; "-o"];
              stdin := None; stdout := Some piped; stderr := Some piped |}
      else {| program := Some "xclip";
              args := ["-selection"; "clipboard"; "-o"];
              stdin := None; stdout := Some piped; stderr := Some piped |}
  end.

Definition system_write_command (os : OperatingSystem) (xsel : bool)
    : Command :=
  match os with
  | darwin =>
      {| program := Some "pbcopy"; args := [];
         stdin := Some piped; stdout := None; stderr := Some piped |}
  | windows =>
      {| program := Some "powershell";
         args := ["-noprofile"; "-command"; "$input|Set-Clipboard"];
         stdin := Some piped; stdout := None; stderr := Some piped |}
  | _ =>
      if xsel
      then {| program := Some "xsel"; args := ["-b"; "-i"];
              stdin := Some piped; stdout := None; stderr := Some piped |}
      else {| program := Some "xclip";
              args := ["-selection"; "clipboard"; "-i"];
              stdin := Some piped; stdout := None; stderr := Some piped |}
  end.

(** Text with every line feed written as carriage return, line feed. *)
Fixpoint to_CRLF (text : string) : string :=
  match text with
  | EmptyString => EmptyString
  | String c rest =>
      if Ascii.eqb c LF then String CR (String LF (to_CRLF rest))
      else String c (to_CRLF rest)
  end.

Definition CRLF : string := String CR (String LF EmptyString).

Fixpoint count_CR (text : string) : nat :=
  match text with
  | EmptyString => 0%nat
  | String c rest =>
      if Ascii.eqb c CR then S (count_CR rest) else count_CR rest
  end.

Fixpoint ends_with_LF (text : string) : bool :=
  match text with
  | EmptyString => false
  | String c rest =>
      match rest with
      | EmptyString => Ascii.eqb c LF
      | String _ _ => ends_with_LF rest
      end
  end.

(** ** Running module code *)

(** Unfolds the monad operations so that a run reduces to the host's
    answers. *)
Ltac run_M :=
  cbv [mbind M_bind mret M_ret try_catch throw request
       get_exports set_exports console Command_output Command_spawn] in *;
  cbn [fst snd] in *.

(** The probe is [where] on Windows and [which] elsewhere, given the
    command as its one argument, with both output streams discarded. *)
Lemma checkCommand_shape h command :
  program (checkCommand h command) =
    Some (if decide (build_os h = windows) then "where" else "which") /\
  args (checkCommand h command) = [command] /\
  stdout (checkCommand h command) = Some null /\
  stderr (checkCommand h command) = Some null.
Proof.
  unfold checkCommand.
  destruct (decide (build_os h = windows)); repeat split.
Qed.

Lemma commandExists_run h command w :
  commandExists h command w =
    (Returned (probe_result h (started w) command),
     start (emit (EvOutput (checkCommand h command)) w)).
Proof.
  unfold commandExists, probe_result. run_M.
  destruct (command_output h (started w) (checkCommand h command));
    reflexivity.
Qed.

(** ** The Windows post-processing as a function on characters *)

Lemma replace_all_CR_chars data :
  list_ascii_of_string (replace_all_CR data) =
    List.filter not_CR (list_ascii_of_string data).
Proof.
  induction data as [|c rest IH]; simpl; [reflexivity|].
  unfold not_CR at 1. destruct (Ascii.eqb c CR); simpl; congruence.
Qed.

Lemma replace_LF_at_end_snoc front :
  replace_LF_at_end (string_of_list_ascii (front ++ [LF])) =
    string_of_list_ascii front.
Proof.
  induction front as [|c front IH]; [reflexivity|].
  change (string_of_list_ascii ((c :: front) ++ [LF]))
    with (String c (string_of_list_ascii (front ++ [LF]))).
  cbn [replace_LF_at_end].
  destruct (string_of_list_ascii (front ++ [LF])) eqn:E.
  - destruct front; discriminate E.
  - rewrite IH. reflexivity.
Qed.

Lemma replace_LF_at_end_other data :
  (forall front, list_ascii_of_string data <> front ++ [LF]) ->
  replace_LF_at_end data = data.
Proof.
  induction data as [|c rest IH]; intros Hend; [reflexivity|].
  cbn [replace_LF_at_end]. destruct rest as [|d rest'].
  - destruct (Ascii.eqb_spec c LF) as [->|]; [|reflexivity].
    exfalso. apply (Hend []). reflexivity.
  - f_equal. apply IH. intros front Hfront.
    apply (Hend (c :: front)). simpl in *. rewrite Hfront. reflexivity.
Qed.

Lemma ends_in_LF_or_not (l : list ascii) :
  (exists front, l = front ++ [LF]) \/ (forall front, l <> front ++ [LF]).
Proof.
  destruct l as [|c l'] using rev_ind.
  - right. intros front Hf. destruct front; discriminate.
  - destruct (Ascii.eqb_spec c LF) as [->|Hc].
    + left. now exists l'.
    + right. intros front Hf. apply app_inj_tail in Hf. tauto.
Qed.

(** ** Claims *)

(** C4: [commandExists] never raises, for any command name and any
    behaviour of the probing process: it returns a boolean, which is [true]
    exactly when the probe ran to completion with exit code 0; a probe that
    cannot be spawned gives [false], and so does any probe of a command the
    path search does not find. *)
Theorem commandExists_never_raises h command w :
  (exists b, fst (commandExists h command w) = Returned b) /\
  (fst (commandExists h command w) = Returned true <->
     exists o, command_output h (started w) (checkCommand h command) = Returned o
               /\ code o = 0) /\
  (forall e, command_output h (started w) (checkCommand h command) = Threw e ->
     fst (commandExists h command w) = Returned false) /\
  (forall o, command_output h (started w) (checkCommand h command) = Returned o ->
     code o <> 0 -> fst (commandExists h command w) = Returned false).
Proof.
  rewrite commandExists_run. cbn [fst]. unfold probe_result.
  split; [eauto|]. split; [|split].
  - destruct (command_output h (started w) (checkCommand h command)) as [o|e].
    + split.
      * intros [= Hc]. exists o. split; [reflexivity|]. now apply Z.eqb_eq.
      * intros (o' & [= <-] & Hc). rewrite Hc. reflexivity.
    + split; [discriminate|]. intros (o' & Habs & _). discriminate.
  - intros e ->. reflexivity.
  - intros o -> Hc. f_equal. now apply Z.eqb_neq.
Qed.

Lemma commandExists_never_raises_witness :
  fst (commandExists (sample_host linux ["xclip"] []) "xsel" initial_world)
    = Returned false /\
  fst (commandExists (sample_host linux ["xclip"] []) "xclip" initial_world)
    = Returned true.
Proof.
  split.
  - refine (proj2 (proj2 (proj2 (commandExists_never_raises
              (sample_host linux ["xclip"] []) "xsel" initial_world)))
            {| code := 1; out_stdout := []; out_stderr := [] |} eq_refl _).
    discriminate.
  - apply (proj1 (proj2 (commandExists_never_raises
             (sample_host linux ["xclip"] []) "xclip" initial_world))).
    eexists. split; reflexivity.
Defined.

(** C3: the post-processing registered for Windows removes every carriage
    return and one trailing line feed: its result has no carriage return,
    it is the input's other characters in order, less a final line feed
    when they end in one (only that one), and on ["line1\r\nline2\r\n"] it
    is ["line1\nline2"]. *)
Theorem windows_postProcess_strips data :
  let out := list_ascii_of_string (windows_postProcess data) in
  let kept := List.filter not_CR (list_ascii_of_string data) in
  ~ In CR out /\
  (forall front, kept = front ++ [LF] -> out = front) /\
  ((forall front, kept <> front ++ [LF]) -> out = kept) /\
  windows_postProcess
    ("line1" +:+ String CR (String LF ("line2" +:+ String CR (String LF ""))))
  = "line1" +:+ String LF "line2".
Proof.
  intros out kept.
  assert (Hkept : list_ascii_of_string (replace_all_CR data) = kept)
    by apply replace_all_CR_chars.
  assert (Hclean : ~ In CR kept).
  { unfold kept. rewrite filter_In. intros [_ Hc]. unfold not_CR in Hc.
    rewrite Ascii.eqb_refl in Hc. discriminate. }
  assert (Hfront : forall front, kept = front ++ [LF] -> out = front).
  { intros front Hk. unfold out, windows_postProcess.
    rewrite <- (string_of_list_ascii_of_string (replace_all_CR data)), Hkept, Hk.
    rewrite replace_LF_at_end_snoc. apply list_ascii_of_string_of_list_ascii. }
  assert (Hother : (forall front, kept <> front ++ [LF]) -> out = kept).
  { intros Hk. unfold out, windows_postProcess.
    rewrite replace_LF_at_end_other; [exact Hkept|]. now rewrite Hkept. }
  split; [|split; [exact Hfront|split; [exact Hother|reflexivity]]].
  destruct (ends_in_LF_or_not kept) as [[front Hk]|Hk].
  - rewrite (Hfront front Hk). intros Hin. apply Hclean. rewrite Hk.
    apply in_or_app. now left.
  - rewrite (Hother Hk). exact Hclean.
Qed.

Lemma windows_postProcess_strips_witness :
  list_ascii_of_string
    (windows_postProcess (String "a" (String CR (String LF (String LF "")))))
  = ["a"%char; LF].
Proof.
  exact (proj1 (proj2 (windows_postProcess_strips
           (String "a" (String CR (String LF (String LF ""))))))
         ["a"%char; LF] eq_refl).
Defined.

(** ** The registry *)

Lemma getImplementations_run h w :
  getImplementations h w =
    (Returned (implementations_object
                 (probe_result h (started w) "xsel")
                 (probe_result h (S (started w)) "xsel")),
     start (emit (EvOutput (checkCommand h "xsel"))
       (start (emit (EvOutput (checkCommand h "xsel")) w)))).
Proof.
  unfold getImplementations. cbv [mbind M_bind].
  rewrite commandExists_run, commandExists_run. reflexivity.
Qed.

Lemma implementations_object_lookup b1 b2 os :
  implementations_object b1 b2 !! os_name os =
    match os with
    | linux => Some (linux_entry b1 b2)
    | darwin =>
        Some (new_ClipboardImplementation darwin ["pbpaste"] ["pbcopy"] None)
    | windows =>
        Some (new_ClipboardImplementation windows
                ["powershell"; "-noprofile"; "-command"; "Get-Clipboard"]
                ["powershell"; "-noprofile"; "-command"; "$input|Set-Clipboard"]
                (Some windows_postProcess))
    | _ => None
    end.
Proof.
  unfold implementations_object, linux_entry.
  destruct os; simpl os_name; simplify_map_eq; reflexivity.
Qed.

Lemma implementations_object_nonempty b1 b2 (key : string) entry :
  implementations_object b1 b2 !! key = Some entry ->
  readCommand entry <> [] /\ writeCommand entry <> [].
Proof.
  unfold implementations_object. intros Hlook.
  repeat (apply lookup_insert_Some in Hlook as [[_ <-]|[_ Hlook]];
          [destruct b1, b2; split; discriminate|]).
  rewrite lookup_empty in Hlook. discriminate.
Qed.

(** C5, as the code has it: building the registry runs the probe for
    [xsel] twice and nothing else, once for the read command and once for
    the write command.  The Linux entry reads with the [xsel] form when
    the first probe reports [xsel] and with the [xclip] form otherwise; it
    writes with the [xsel] form when the second probe reports [xsel] and
    with the [xclip] form otherwise, argument for argument.  When the two
    probes report the same, the entry has the two forms of one utility. *)
Theorem linux_entry_follows_each_probe h w :
  exists (implementations : ClipboardMap) w' entry,
    getImplementations h w = (Returned implementations, w') /\
    trace w' = trace w ++ [EvOutput (checkCommand h "xsel");
                           EvOutput (checkCommand h "xsel")] /\
    args (checkCommand h "xsel") = ["xsel"] /\
    implementations !! "linux" = Some entry /\
    postProcess entry = None /\
    readCommand entry =
      (if probe_result h (started w) "xsel"
       then ["xsel"; "-b"; "-o"]
       else ["xclip"; "-selection"; "clipboard"; "-o"]) /\
    writeCommand entry =
      (if probe_result h (S (started w)) "xsel"
       then ["xsel"; "-b"; "-i"]
       else ["xclip"; "-selection"; "clipboard"; "-i"]) /\
    forall present : bool,
      probe_result h (started w) "xsel" = present ->
      probe_result h (S (started w)) "xsel" = present ->
      if present
      then readCommand entry = ["xsel"; "-b"; "-o"] /\
           writeCommand entry = ["xsel"; "-b"; "-i"]
      else readCommand entry = ["xclip"; "-selection"; "clipboard"; "-o"] /\
           writeCommand entry = ["xclip"; "-selection"; "clipboard"; "-i"].
Proof.
  rewrite getImplementations_run.
  exists (implementations_object (probe_result h (started w) "xsel")
            (probe_result h (S (started w)) "xsel")).
  eexists.
  exists (linux_entry (probe_result h (started w) "xsel")
            (probe_result h (S (started w)) "xsel")).
  split; [reflexivity|]. split.
  { cbn [trace start emit]. rewrite <- app_assoc. reflexivity. }
  split; [apply checkCommand_shape|].
  split; [apply (implementations_object_lookup _ _ linux)|].
  split; [reflexivity|]. split; [reflexivity|]. split; [reflexivity|].
  intros present -> ->. destruct present; split; reflexivity.
Qed.

Lemma linux_entry_follows_each_probe_witness :
  exists (implementations : ClipboardMap),
    fst (getImplementations (sample_host linux ["xclip"] []) initial_world)
      = Returned implementations /\
    readCommand <$> implementations !! "linux"
      = Some ["xclip"; "-selection"; "clipboard"; "-o"] /\
    writeCommand <$> implementations !! "linux"
      = Some ["xclip"; "-selection"; "clipboard"; "-i"].
Proof.
  destruct (linux_entry_follows_each_probe (sample_host linux ["xclip"] [])
              initial_world)
    as (m & w' & entry & Hrun & _ & _ & Hentry & _ & _ & _ & Hagree).
  destruct (Hagree false eq_refl eq_refl) as [Hread Hwrite].
  exists m. rewrite Hrun, Hentry. simpl. rewrite Hread, Hwrite.
  repeat split.
Defined.

(** C5 as stated fails: the two probes are separate runs and need not
    agree.  On a host where [xsel] is installed throughout but the first
    process cannot be spawned, and on a host where [xsel] appears between
    the two probes, the Linux entry reads with [xclip] and writes with
    [xsel]: it has neither the pair of [xsel] forms nor the pair of
    [xclip] forms. *)
Lemma linux_entry_mixes_utilities :
  (exists (implementations : ClipboardMap),
     fst (getImplementations flaky_start_host initial_world)
       = Returned implementations /\
     readCommand <$> implementations !! "linux"
       = Some ["xclip"; "-selection"; "clipboard"; "-o"] /\
     writeCommand <$> implementations !! "linux" = Some ["xsel"; "-b"; "-i"] /\
     readCommand <$> implementations !! "linux" <> Some ["xsel"; "-b"; "-o"] /\
     writeCommand <$> implementations !! "linux"
       <> Some ["xclip"; "-selection"; "clipboard"; "-i"]) /\
  (exists (implementations : ClipboardMap),
     fst (getImplementations late_xsel_host initial_world)
       = Returned implementations /\
     readCommand <$> implementations !! "linux"
       = Some ["xclip"; "-selection"; "clipboard"; "-o"] /\
     writeCommand <$> implementations !! "linux" = Some ["xsel"; "-b"; "-i"] /\
     readCommand <$> implementations !! "linux" <> Some ["xsel"; "-b"; "-o"] /\
     writeCommand <$> implementations !! "linux"
       <> Some ["xclip"; "-selection"; "clipboard"; "-i"]).
Proof.
  split; rewrite getImplementations_run; eexists;
    (split; [reflexivity|]);
    rewrite (implementations_object_lookup _ _ linux);
    repeat split; discriminate.
Qed.

(** C6: for each of freebsd, netbsd, aix, solaris and illumos, and
    whatever the host, the registry that [getImplementations] returns has
    no entry, and the [Clipboard] constructor throws the unsupported-OS
    error, whose message ends with that system's name. *)
Theorem constructor_rejects_unregistered h w os (Hos : In os unregistered) :
  exists implementations w',
    getImplementations h w = (Returned implementations, w') /\
    implementations !! os_name os = None /\
    forall w'',
      Clipboard_constructor os implementations w'' =
        (Threw (JsError "Error" ("Clipboard: unsupported OS: " +:+ os_name os)),
         w'').
Proof.
  rewrite getImplementations_run. eexists _, _. split; [reflexivity|].
  assert (Hnone : implementations_object
                    (probe_result h (started w) "xsel")
                    (probe_result h (S (started w)) "xsel") !! os_name os = None).
  { rewrite implementations_object_lookup.
    unfold unregistered in Hos. simpl in Hos.
    destruct Hos as [<-|[<-|[<-|[<-|[<-|[]]]]]]; reflexivity. }
  split; [exact Hnone|].
  intros w''. unfold Clipboard_constructor. rewrite Hnone. reflexivity.
Qed.

Lemma constructor_rejects_unregistered_witness :
  In freebsd unregistered /\
  exists implementations w',
    getImplementations (sample_host freebsd [] []) initial_world
      = (Returned implementations, w') /\
    Clipboard_constructor freebsd implementations w'
      = (Threw (JsError "Error" "Clipboard: unsupported OS: freebsd"), w').
Proof.
  assert (Hos : In freebsd unregistered) by (simpl; tauto).
  split; [exact Hos|].
  destruct (constructor_rejects_unregistered
              (sample_host freebsd [] []) initial_world freebsd Hos)
    as (m & w' & Hrun & _ & Hthrow).
  exists m, w'. split; [exact Hrun|]. apply Hthrow.
Defined.

(** C7: for each of linux, darwin and windows, and whatever the probes
    report, the registry has an entry for the system, the [Clipboard]
    constructor returns a facade holding exactly that entry, and its read
    and write commands are non-empty; no entry of the registry, under any
    key, has an empty command. *)
Theorem constructor_binds_registered h w os (Hos : In os registered) :
  exists implementations w',
    getImplementations h w = (Returned implementations, w') /\
    (exists entry,
       implementations !! os_name os = Some entry /\
       (forall w'',
          Clipboard_constructor os implementations w'' =
            (Returned (new_Clipboard entry), w'')) /\
       readCommand entry <> [] /\ writeCommand entry <> []) /\
    (forall (key : string) entry,
       implementations !! key = Some entry ->
       readCommand entry <> [] /\ writeCommand entry <> []).
Proof.
  rewrite getImplementations_run. eexists _, _. split; [reflexivity|].
  split; [|apply implementations_object_nonempty].
  set (m := implementations_object _ _).
  assert (Hsome : exists entry, m !! os_name os = Some entry).
  { unfold m. rewrite implementations_object_lookup.
    unfold registered in Hos. simpl in Hos.
    destruct Hos as [<-|[<-|[<-|[]]]]; eauto. }
  destruct Hsome as [entry Hentry]. exists entry.
  split; [exact Hentry|]. split.
  - intros w''. unfold Clipboard_constructor. rewrite Hentry. reflexivity.
  - apply (implementations_object_nonempty _ _ _ _ Hentry).
Qed.

Lemma constructor_binds_registered_witness :
  In windows registered /\
  exists implementations w' entry,
    getImplementations (sample_host windows ["powershell"] []) initial_world
      = (Returned implementations, w') /\
    Clipboard_constructor windows implementations w'
      = (Returned (new_Clipboard entry), w').
Proof.
  assert (Hos : In windows registered) by (simpl; tauto).
  split; [exact Hos|].
  destruct (constructor_binds_registered
              (sample_host windows ["powershell"] []) initial_world windows Hos)
    as (m & w' & Hrun & (entry & _ & Hnew & _) & _).
  exists m, w', entry. split; [exact Hrun|]. apply Hnew.
Defined.

(** ** The process-pipe executor *)

Lemma readText_run h this w :
  ClipboardImplementation_readText h this w =
    (match command_output h (started w) (readText_command this) with
     | Returned o =>
         Returned (match postProcess this with
                   | Some f => f (text_decode h (out_stdout o))
                   | None => text_decode h (out_stdout o)
                   end)
     | Threw e => Threw (clipboard_failure e)
     end,
     start (emit (EvOutput (readText_command this)) w)).
Proof.
  unfold ClipboardImplementation_readText, clipboard_failure. run_M.
  destruct (command_output h (started w) (readText_command this)) as [o|[]];
    reflexivity.
Qed.

Lemma writeText_catch h this data w :
  ClipboardImplementation_writeText h this data w =
    match writeText_try h (writeText_command this) data w with
    | (Returned u, w') => (Returned u, w')
    | (Threw e, w') => (Threw (clipboard_failure e), w')
    end.
Proof.
  unfold ClipboardImplementation_writeText, clipboard_failure. run_M.
  destruct (writeText_try h (writeText_command this) data w) as [[u|[]] w'];
    reflexivity.
Qed.

Lemma writeText_try_run h this data w :
  writeText_try h (writeText_command this) data w =
    match command_spawn h (started w) (writeText_command this) with
    | Threw e => (Threw e, start (emit (EvSpawn (writeText_command this)) w))
    | Returned child =>
        let w1 := emit EvGetWriter
                    (start (emit (EvSpawn (writeText_command this)) w)) in
        match stdin_getWriter child with
        | Threw e => (Threw e, w1)
        | Returned _ =>
            let w2 := emit (EvWrite (text_encode h data)) w1 in
            match writer_write child (text_encode h data) with
            | Threw e => (Threw e, w2)
            | Returned _ =>
                match writer_close child with
                | Threw e => (Threw e, emit EvClose w2)
                | Returned _ =>
                    match child_status child with
                    | Threw e => (Threw e, emit EvStatus (emit EvClose w2))
                    | Returned _ =>
                        (Returned tt, emit EvStatus (emit EvClose w2))
                    end
                end
            end
        end
    end.
Proof.
  unfold writeText_try. run_M.
  destruct (command_spawn h (started w) (writeText_command this)) as [child|e];
    [|reflexivity].
  destruct (stdin_getWriter child); [|reflexivity].
  destruct (writer_write child (text_encode h data)); [|reflexivity].
  destruct (writer_close child); [|reflexivity].
  destruct (child_status child); reflexivity.
Qed.

(** C8: [readText] returns exactly when the read command's [output()]
    settles with a result; the value is then the decoding of the captured
    standard output, passed through the entry's post-processing when it
    has one and untouched when it has none.  When [output()] rejects,
    [readText] throws an [Error] whose message is
    ["Failed to read from clipboard: "] followed by the cause. *)
Theorem readText_decodes_stdout h this w :
  (forall o,
     command_output h (started w) (readText_command this) = Returned o ->
     (postProcess this = None ->
      fst (ClipboardImplementation_readText h this w)
        = Returned (text_decode h (out_stdout o))) /\
     (forall f, postProcess this = Some f ->
      fst (ClipboardImplementation_readText h this w)
        = Returned (f (text_decode h (out_stdout o))))) /\
  (forall text,
     fst (ClipboardImplementation_readText h this w) = Returned text ->
     exists o,
       command_output h (started w) (readText_command this) = Returned o /\
       text = match postProcess this with
              | Some f => f (text_decode h (out_stdout o))
              | None => text_decode h (out_stdout o)
              end) /\
  (forall e,
     command_output h (started w) (readText_command this) = Threw e ->
     fst (ClipboardImplementation_readText h this w)
       = Threw (JsError "Error" ("Failed to read from clipboard: " +:+ cause e))).
Proof.
  rewrite readText_run. cbn [fst]. split; [|split].
  - intros o ->. split.
    + intros ->. reflexivity.
    + intros f ->. reflexivity.
  - intros text Htext.
    destruct (command_output h (started w) (readText_command this)) as [o|e];
      [|discriminate].
    exists o. split; [reflexivity|]. congruence.
  - intros e ->. reflexivity.
Qed.

Lemma readText_decodes_stdout_witness :
  fst (ClipboardImplementation_readText
         (sample_host windows ["powershell"]
            (list_byte_of_string
               ("line1" +:+ String CR (String LF
                  ("line2" +:+ String CR (String LF ""))))))
         (new_ClipboardImplementation windows
            ["powershell"; "-noprofile"; "-command"; "Get-Clipboard"]
            ["powershell"; "-noprofile"; "-command"; "$input|Set-Clipboard"]
            (Some windows_postProcess))
         initial_world)
    = Returned ("line1" +:+ String LF "line2") /\
  fst (ClipboardImplementation_readText (sample_host darwin [] [])
         (new_ClipboardImplementation darwin ["pbpaste"] ["pbcopy"] None)
         initial_world)
    = Threw (JsError "Error"
        "Failed to read from clipboard: Failed to spawn 'pbpaste': entity not found").
Proof.
  split.
  - exact (proj2 (proj1 (readText_decodes_stdout
             (sample_host windows ["powershell"]
                (list_byte_of_string
                   ("line1" +:+ String CR (String LF
                      ("line2" +:+ String CR (String LF ""))))))
             (new_ClipboardImplementation windows
                ["powershell"; "-noprofile"; "-command"; "Get-Clipboard"]
                ["powershell"; "-noprofile"; "-command"; "$input|Set-Clipboard"]
                (Some windows_postProcess))
             initial_world) _ eq_refl)
             windows_postProcess eq_refl).
  - exact (proj2 (proj2 (readText_decodes_stdout (sample_host darwin [] [])
             (new_ClipboardImplementation darwin ["pbpaste"] ["pbcopy"] None)
             initial_world)) (not_found "pbpaste") eq_refl).
Defined.

(** C10: once the read command's [output()] settles with a result,
    [readText] returns the decoded and post-processed standard output
    whatever the exit code and the captured standard error are: two
    results that agree on standard output give the same text.  For an
    entry of the registry and an empty standard output the text is the
    empty string (the decoder mapping no bytes to no characters). *)
Theorem readText_ignores_exit_status h this w o
    (Hrun : command_output h (started w) (readText_command this) = Returned o) :
  fst (ClipboardImplementation_readText h this w)
    = Returned (match postProcess this with
                | Some f => f (text_decode h (out_stdout o))
                | None => text_decode h (out_stdout o)
                end) /\
  (forall h2 w2 o2,
     command_output h2 (started w2) (readText_command this) = Returned o2 ->
     text_decode h2 = text_decode h ->
     out_stdout o2 = out_stdout o ->
     fst (ClipboardImplementation_readText h2 this w2)
       = fst (ClipboardImplementation_readText h this w)) /\
  (forall b1 b2 (key : string),
     implementations_object b1 b2 !! key = Some this ->
     out_stdout o = [] ->
     text_decode h [] = "" ->
     fst (ClipboardImplementation_readText h this w) = Returned "").
Proof.
  rewrite readText_run, Hrun. cbn [fst]. split; [reflexivity|]. split.
  - intros h2 w2 o2 Hrun2 Hdec Hout.
    rewrite readText_run, Hrun2, Hdec, Hout. reflexivity.
  - intros b1 b2 key Hentry -> ->.
    unfold implementations_object in Hentry.
    repeat (apply lookup_insert_Some in Hentry as [[_ <-]|[_ Hentry]];
            [reflexivity|]).
    rewrite lookup_empty in Hentry. discriminate.
Qed.

Lemma readText_ignores_exit_status_witness :
  exists o,
    command_output no_display_host 0 (readText_command (linux_entry false false))
      = Returned o /\
    code o <> 0 /\
    fst (ClipboardImplementation_readText no_display_host
           (linux_entry false false) initial_world) = Returned "".
Proof.
  eexists. split; [reflexivity|]. split; [discriminate|].
  refine (proj2 (proj2 (readText_ignores_exit_status no_display_host
            (linux_entry false false) initial_world _ eq_refl))
            false false "linux" _ eq_refl eq_refl).
  apply (implementations_object_lookup false false linux).
Defined.

(** C9: when the write command is spawned and the writer accepts the
    bytes and the close, [writeText] returns (with no value) whatever
    status the child ends with; what it asked of the host is, in this
    order, the spawn, the writer, one write of the encoded text, the
    close, and the child's status.  Conversely every successful
    [writeText] went through exactly these requests. *)
Theorem writeText_pipes_encoded_text h this data w :
  (forall child status,
     command_spawn h (started w) (writeText_command this) = Returned child ->
     stdin_getWriter child = Returned tt ->
     writer_write child (text_encode h data) = Returned tt ->
     writer_close child = Returned tt ->
     child_status child = Returned status ->
     exists w',
       ClipboardImplementation_writeText h this data w = (Returned tt, w') /\
       trace w' = trace w ++ write_requests h this data) /\
  (forall w',
     ClipboardImplementation_writeText h this data w = (Returned tt, w') ->
     trace w' = trace w ++ write_requests h this data /\
     exists child status,
       command_spawn h (started w) (writeText_command this) = Returned child /\
       stdin_getWriter child = Returned tt /\
       writer_write child (text_encode h data) = Returned tt /\
       writer_close child = Returned tt /\
       child_status child = Returned status).
Proof.
  assert (Htrace :
    trace (emit EvStatus (emit EvClose (emit (EvWrite (text_encode h data))
             (emit EvGetWriter
                (start (emit (EvSpawn (writeText_command this)) w))))))
    = trace w ++ write_requests h this data).
  { cbn [trace start emit]. unfold write_requests.
    rewrite <- !app_assoc. reflexivity. }
  rewrite writeText_catch, writeText_try_run. split.
  - intros child status Hspawn Hwriter Hwrite Hclose Hstatus.
    rewrite Hspawn. cbn zeta. rewrite Hwriter, Hwrite, Hclose, Hstatus.
    eexists. split; [reflexivity|]. exact Htrace.
  - intros w'.
    destruct (command_spawn h (started w) (writeText_command this))
      as [child|e]; [|discriminate].
    cbn zeta.
    destruct (stdin_getWriter child) as [[]|] eqn:Hwriter; [|discriminate].
    destruct (writer_write child (text_encode h data)) as [[]|] eqn:Hwrite;
      [|discriminate].
    destruct (writer_close child) as [[]|] eqn:Hclose; [|discriminate].
    destruct (child_status child) as [status|] eqn:Hstatus; [|discriminate].
    intros [= <-]. split; [exact Htrace|].
    exists child, status. auto.
Qed.

Lemma writeText_pipes_encoded_text_witness :
  exists w',
    ClipboardImplementation_writeText (sample_host darwin ["pbcopy"] [])
      (new_ClipboardImplementation darwin ["pbpaste"] ["pbcopy"] None)
      "hello world" initial_world = (Returned tt, w') /\
    trace w' =
      [EvSpawn {| program := Some "pbcopy"; args := [];
                  stdin := Some piped; stdout := None; stderr := Some piped |};
       EvGetWriter;
       EvWrite (list_byte_of_string "hello world");
       EvClose;
       EvStatus].
Proof.
  exact (proj1 (writeText_pipes_encoded_text (sample_host darwin ["pbcopy"] [])
           (new_ClipboardImplementation darwin ["pbpaste"] ["pbcopy"] None)
           "hello world" initial_world)
         obedient_child {| status_success := true; status_code := 0 |}
         eq_refl eq_refl eq_refl eq_refl eq_refl).
Defined.



(** ** Module initialisation *)

Lemma initialize_unregistered h w :
  In (build_os h) unregistered ->
  initialize h w =
    (Threw (unsupported_OS_error (build_os h)),
     emit (EvConsole console_warn (warning_text (build_os h)))
       (start (emit (EvOutput (checkCommand h "xsel"))
          (start (emit (EvOutput (checkCommand h "xsel")) w))))).
Proof.
  intros Hos. unfold initialize. cbv [mbind M_bind].
  rewrite getImplementations_run.
  assert (Hnone : implementations_object
                    (probe_result h (started w) "xsel")
                    (probe_result h (S (started w)) "xsel")
                    !! os_name (build_os h) = None).
  { rewrite implementations_object_lookup.
    unfold unregistered in Hos. simpl in Hos.
    destruct Hos as [<-|[<-|[<-|[<-|[<-|[]]]]]]; reflexivity. }
  unfold Clipboard_constructor. rewrite Hnone. reflexivity.
Qed.

Lemma initialize_registered h w :
  In (build_os h) registered ->
  exists entry w',
    initialize h w = (Returned tt, w') /\
    implementations_object
      (probe_result h (started w) "xsel")
      (probe_result h (S (started w)) "xsel") !! os_name (build_os h)
      = Some entry /\
    exports w' = {| clipboard := Some (new_Clipboard entry);
                    readText := Some (new_Clipboard entry);
                    writeText := Some (new_Clipboard entry) |} /\
    List.filter is_console (trace w') = List.filter is_console (trace w).
Proof.
  intros Hos. unfold initialize. cbv [mbind M_bind].
  rewrite getImplementations_run.
  set (m := implementations_object _ _).
  assert (Hsome : exists entry, m !! os_name (build_os h) = Some entry).
  { unfold m. rewrite implementations_object_lookup.
    unfold registered in Hos. simpl in Hos.
    destruct Hos as [<-|[<-|[<-|[]]]]; eauto. }
  destruct Hsome as [entry Hentry]. exists entry.
  unfold Clipboard_constructor. rewrite Hentry. eexists.
  split; [reflexivity|]. split; [reflexivity|]. split; [reflexivity|].
  cbn [trace start emit]. rewrite !List.filter_app. simpl.
  rewrite !app_nil_r. reflexivity.
Qed.

Lemma run_calls_undefined h calls w :
  exports w = no_exports ->
  run_calls h calls w = (map not_a_function calls, w).
Proof.
  intros Hexp. induction calls as [|c calls IH]; [reflexivity|].
  cbn [run_calls map].
  assert (Hcall : run_call h c w = (not_a_function c, w)).
  { destruct c; unfold run_call, call_readText, call_writeText; run_M;
      rewrite Hexp; reflexivity. }
  rewrite Hcall, IH. reflexivity.
Qed.

(** C1, as the code has it: on freebsd, netbsd, aix, solaris or illumos,
    evaluating the module prints one console message, a warning naming the
    system, and completes without throwing; the unsupported-OS error is
    thrown by the facade constructor inside the initialisation block and
    settles that block's promise, which nothing awaits; the exported
    bindings are never assigned, so every later call of [readText] or
    [writeText] fails, with a [TypeError] for calling [undefined], without
    starting any process. *)
Theorem unregistered_startup h w
    (Hos : In (build_os h) unregistered) (Hfresh : exports w = no_exports) :
  exists w',
    module_body h w =
      (Returned
         (Threw (JsError "Error"
                   ("Clipboard: unsupported OS: " +:+ os_name (build_os h)))),
       w') /\
    List.filter is_console (trace w') =
      List.filter is_console (trace w) ++
      [EvConsole console_warn
         ("Clipboard support not available for " +:+ os_name (build_os h))] /\
    exports w' = no_exports /\
    forall calls,
      run_calls h calls w' = (map not_a_function calls, w').
Proof.
  unfold module_body. rewrite (initialize_unregistered h w Hos).
  eexists. split; [reflexivity|]. split; [|split].
  - cbn [trace start emit]. rewrite !List.filter_app. simpl.
    rewrite !app_nil_r. reflexivity.
  - exact Hfresh.
  - intros calls. apply run_calls_undefined. exact Hfresh.
Qed.

Lemma unregistered_startup_witness :
  exists w',
    module_body (sample_host freebsd [] []) initial_world =
      (Returned (Threw (JsError "Error" "Clipboard: unsupported OS: freebsd")),
       w') /\
    run_calls (sample_host freebsd [] [])
      [CallReadText; CallWriteText "hello world"] w' =
      ([ReadOutcome (Threw (JsError "TypeError" "readText is not a function"));
        WriteOutcome (Threw (JsError "TypeError" "writeText is not a function"))],
       w').
Proof.
  destruct (unregistered_startup (sample_host freebsd [] []) initial_world)
    as (w' & Hload & _ & _ & Hcalls).
  - simpl. tauto.
  - reflexivity.
  - exists w'. split; [exact Hload|]. apply Hcalls.
Defined.

(** C1 as stated fails on freebsd: after the module is loaded, a call of
    [readText] or [writeText] throws a [TypeError] that does not mention an
    unsupported system, not the unsupported-OS error. *)
Lemma unregistered_call_error_differs :
  In (build_os (sample_host freebsd [] [])) unregistered /\
  fst (call_readText (sample_host freebsd [] [])
         (snd (module_body (sample_host freebsd [] []) initial_world)))
    = Threw (JsError "TypeError" "readText is not a function") /\
  fst (call_readText (sample_host freebsd [] [])
         (snd (module_body (sample_host freebsd [] []) initial_world)))
    <> Threw (unsupported_OS_error freebsd) /\
  fst (call_writeText (sample_host freebsd [] []) "hello world"
         (snd (module_body (sample_host freebsd [] []) initial_world)))
    <> Threw (unsupported_OS_error freebsd) /\
  includes "unsupported OS" "readText is not a function" = false /\
  includes "unsupported OS" "writeText is not a function" = false.
Proof.
  split; [simpl; tauto|].
  split; [reflexivity|].
  split; [discriminate|].
  split; [discriminate|].
  split; reflexivity.
Qed.

(** ** Further properties of the Windows post-processing *)

Lemma replace_all_CR_length data :
  (String.length (replace_all_CR data) + count_CR data)%nat
    = String.length data.
Proof.
  induction data as [|c rest IH]; [reflexivity|].
  cbn [replace_all_CR count_CR]. destruct (Ascii.eqb c CR); simpl; lia.
Qed.

Lemma replace_all_CR_clean data :
  count_CR data = 0%nat -> replace_all_CR data = data.
Proof.
  induction data as [|c rest IH]; [reflexivity|].
  cbn [replace_all_CR count_CR]. destruct (Ascii.eqb c CR); [discriminate|].
  intros Hc. rewrite IH; [reflexivity|exact Hc].
Qed.

Lemma replace_LF_at_end_length data :
  (String.length (replace_LF_at_end data)
   + (if ends_with_LF data then 1 else 0))%nat = String.length data.
Proof.
  induction data as [|c rest IH]; [reflexivity|].
  cbn [replace_LF_at_end ends_with_LF]. destruct rest as [|d rest'].
  - destruct (Ascii.eqb c LF); reflexivity.
  - cbn [String.length] in *. lia.
Qed.

Lemma replace_LF_at_end_clean data :
  ends_with_LF data = false -> replace_LF_at_end data = data.
Proof.
  induction data as [|c rest IH]; [reflexivity|].
  cbn [replace_LF_at_end ends_with_LF]. destruct rest as [|d rest'].
  - intros ->. reflexivity.
  - intros Hend. rewrite IH; [reflexivity|exact Hend].
Qed.

Lemma replace_LF_at_end_append data :
  replace_LF_at_end (data +:+ String LF EmptyString) = data.
Proof.
  induction data as [|c rest IH]; [reflexivity|].
  change (String c rest +:+ String LF EmptyString)
    with (String c (rest +:+ String LF EmptyString)).
  cbn [replace_LF_at_end].
  destruct (rest +:+ String LF EmptyString) eqn:E.
  - destruct rest; discriminate E.
  - rewrite IH. reflexivity.
Qed.

Lemma replace_all_CR_of_CRLF data :
  count_CR data = 0%nat ->
  replace_all_CR (to_CRLF data +:+ CRLF) = data +:+ String LF EmptyString.
Proof.
  induction data as [|c rest IH]; [reflexivity|].
  cbn [count_CR to_CRLF]. destruct (Ascii.eqb_spec c CR) as [|Hcr];
    [discriminate|].
  intros Hc. destruct (Ascii.eqb_spec c LF) as [->|Hlf].
  - change (replace_all_CR (String CR (String LF (to_CRLF rest +:+ CRLF))) =
            String LF (rest +:+ String LF EmptyString)).
    cbn [replace_all_CR]. rewrite Ascii.eqb_refl.
    change (Ascii.eqb LF CR) with false. cbv iota.
    rewrite IH; [reflexivity|exact Hc].
  - change (replace_all_CR (String c (to_CRLF rest +:+ CRLF)) =
            String c (rest +:+ String LF EmptyString)).
    cbn [replace_all_CR].
    destruct (Ascii.eqb_spec c CR); [contradiction|].
    rewrite IH; [reflexivity|exact Hc].
Qed.

(** X12: the Windows post-processing returns its input unchanged exactly
    when the input has no carriage return and does not end with a line
    feed. *)
Theorem windows_postProcess_unchanged_iff data :
  windows_postProcess data = data <->
  count_CR data = 0%nat /\ ends_with_LF data = false.
Proof.
  unfold windows_postProcess. split.
  - intros Hfix.
    pose proof (replace_all_CR_length data) as Hcr.
    pose proof (replace_LF_at_end_length (replace_all_CR data)) as Hlf.
    rewrite Hfix in Hlf.
    assert (Hnone : count_CR data = 0%nat)
      by (destruct (ends_with_LF (replace_all_CR data)); lia).
    split; [exact Hnone|].
    rewrite (replace_all_CR_clean data Hnone) in Hlf.
    destruct (ends_with_LF data); [lia|reflexivity].
  - intros [Hnone Hend].
    rewrite (replace_all_CR_clean data Hnone).
    apply replace_LF_at_end_clean. exact Hend.
Qed.

(** X13: the Windows post-processing never lengthens the text: its result
    is shorter than the input by the number of carriage returns, and by
    one more when what is left ends with a line feed. *)
Theorem windows_postProcess_length data :
  (String.length (windows_postProcess data)
   + count_CR data
   + (if ends_with_LF (replace_all_CR data) then 1 else 0))%nat
    = String.length data /\
  (String.length (windows_postProcess data) <= String.length data)%nat.
Proof.
  unfold windows_postProcess.
  pose proof (replace_all_CR_length data) as Hcr.
  pose proof (replace_LF_at_end_length (replace_all_CR data)) as Hlf.
  split; lia.
Qed.

(** X14: for a text without carriage returns, post-processing its
    CRLF form followed by one more CRLF gives the text back, final line
    feeds of the text included. *)
Theorem windows_postProcess_undoes_CRLF data
    (Hclean : count_CR data = 0%nat) :
  windows_postProcess (to_CRLF data +:+ CRLF) = data.
Proof.
  unfold windows_postProcess.
  rewrite (replace_all_CR_of_CRLF data Hclean).
  apply replace_LF_at_end_append.
Qed.

Lemma windows_postProcess_undoes_CRLF_witness :
  windows_postProcess
    (to_CRLF ("line1" +:+ String LF ("line2" +:+ String LF EmptyString))
     +:+ CRLF)
  = "line1" +:+ String LF ("line2" +:+ String LF EmptyString).
Proof.
  exact (windows_postProcess_undoes_CRLF
           ("line1" +:+ String LF ("line2" +:+ String LF EmptyString))
           eq_refl).
Defined.

(** ** Further properties of the registry *)

Lemma implementations_object_dom b1 b2 :
  dom (implementations_object b1 b2)
    = ({["linux"; "darwin"; "windows"]} : gset string).
Proof.
  unfold implementations_object.
  rewrite !dom_insert_L, dom_empty_L. set_solver.
Qed.

Lemma implementations_object_entries b1 b2 (key : string) entry :
  implementations_object b1 b2 !! key = Some entry ->
  os_name (os entry) = key /\
  (is_Some (postProcess entry) <-> key = "windows").
Proof.
  unfold implementations_object. intros Hlook.
  apply lookup_insert_Some in Hlook as [[<- <-]|[_ Hlook]].
  { split; [reflexivity|]. split; [intros [f Hf]|]; discriminate. }
  apply lookup_insert_Some in Hlook as [[<- <-]|[_ Hlook]].
  { split; [reflexivity|]. split; [intros [f Hf]|]; discriminate. }
  apply lookup_insert_Some in Hlook as [[<- <-]|[_ Hlook]].
  { split; [reflexivity|]. split; [reflexivity|]. intros _. eexists.
    reflexivity. }
  rewrite lookup_empty in Hlook. discriminate.
Qed.

Lemma implementations_entry_commands b1 b2 sys entry :
  implementations_object b1 b2 !! os_name sys = Some entry ->
  os entry = sys /\
  readText_command entry = system_read_command sys b1 /\
  writeText_command entry = system_write_command sys b2.
Proof.
  rewrite implementations_object_lookup.
  destruct sys; intros [= <-]; destruct b1, b2; repeat split.
Qed.

(** X9: on every host the registry that [getImplementations] returns has
    exactly the keys linux, darwin and windows; each entry records the
    operating system it is filed under, and only the Windows entry has a
    post-processing function. *)
Theorem registry_keys_and_entries h w :
  exists (implementations : ClipboardMap) w',
    getImplementations h w = (Returned implementations, w') /\
    dom implementations = ({["linux"; "darwin"; "windows"]} : gset string) /\
    forall (key : string) entry,
      implementations !! key = Some entry ->
      os_name (os entry) = key /\
      (is_Some (postProcess entry) <-> key = "windows").
Proof.
  rewrite getImplementations_run. eexists _, _. split; [reflexivity|].
  split; [apply implementations_object_dom|].
  apply implementations_object_entries.
Qed.

(** X10: the Linux entry's read command follows the first probe alone and
    its write command the second alone, whatever the two report. *)
Theorem linux_commands_follow_their_own_probe h w :
  exists (implementations : ClipboardMap) w' entry,
    getImplementations h w = (Returned implementations, w') /\
    implementations !! "linux" = Some entry /\
    readCommand entry =
      (if probe_result h (started w) "xsel"
       then ["xsel"; "-b"; "-o"]
       else ["xclip"; "-selection"; "clipboard"; "-o"]) /\
    writeCommand entry =
      (if probe_result h (S (started w)) "xsel"
       then ["xsel"; "-b"; "-i"]
       else ["xclip"; "-selection"; "clipboard"; "-i"]).
Proof.
  rewrite getImplementations_run. eexists _, _, _.
  split; [reflexivity|].
  split; [apply (implementations_object_lookup _ _ linux)|].
  split; reflexivity.
Qed.

(** ** Further properties of the process-pipe executor *)

Lemma readText_effect h this w :
  snd (ClipboardImplementation_readText h this w)
    = start (emit (EvOutput (readText_command this)) w).
Proof. rewrite readText_run. reflexivity. Qed.

Lemma readText_throws_wrapped h this w e :
  fst (ClipboardImplementation_readText h this w) = Threw e ->
  exists text,
    e = JsError "Error" ("Failed to read from clipboard: " +:+ text).
Proof.
  rewrite readText_run. cbn [fst].
  destruct (command_output h (started w) (readText_command this)) as [o|x];
    [discriminate|].
  intros [= <-]. exists (cause x). reflexivity.
Qed.

Lemma writeText_throws_wrapped h this data w e :
  fst (ClipboardImplementation_writeText h this data w) = Threw e ->
  exists text,
    e = JsError "Error" ("Failed to read from clipboard: " +:+ text).
Proof.
  rewrite writeText_catch.
  destruct (writeText_try h (writeText_command this) data w) as [[u|x] w'];
    [discriminate|].
  cbn [fst]. intros [= <-]. exists (cause x). reflexivity.
Qed.

Lemma writeText_effect h this data w :
  exports (snd (ClipboardImplementation_writeText h this data w)) = exports w /\
  started (snd (ClipboardImplementation_writeText h this data w))
    = S (started w) /\
  exists n,
    (1 <= n <= 5)%nat /\
    trace (snd (ClipboardImplementation_writeText h this data w))
      = trace w ++ firstn n (write_requests h this data) /\
    (fst (ClipboardImplementation_writeText h this data w) = Returned tt ->
     n = 5%nat).
Proof.
  rewrite writeText_catch, writeText_try_run.
  destruct (command_spawn h (started w) (writeText_command this)) as [child|e].
  2:{ repeat split. exists 1%nat. repeat split; [lia|lia|discriminate]. }
  cbn zeta.
  destruct (stdin_getWriter child).
  2:{ repeat split. exists 2%nat. cbn [trace emit start snd firstn].
      rewrite <- !app_assoc. repeat split; [lia|lia|discriminate]. }
  destruct (writer_write child (text_encode h data)).
  2:{ repeat split. exists 3%nat. cbn [trace emit start snd firstn].
      rewrite <- !app_assoc. repeat split; [lia|lia|discriminate]. }
  destruct (writer_close child).
  2:{ repeat split. exists 4%nat. cbn [trace emit start snd firstn].
      rewrite <- !app_assoc. repeat split; [lia|lia|discriminate]. }
  destruct (child_status child);
    (repeat split; exists 5%nat; cbn [trace emit start snd firstn];
     rewrite <- !app_assoc; repeat split; lia).
Qed.

(** X7: whatever happens, [writeText] starts exactly one process, leaves
    the exported bindings alone, and asks the host for a non-empty initial
    part of the five requests of a complete write, in their order; it
    returns only after all five. *)
Theorem writeText_requests_are_a_prefix h this data w :
  exists n,
    (1 <= n <= 5)%nat /\
    trace (snd (ClipboardImplementation_writeText h this data w))
      = trace w ++ firstn n (write_requests h this data) /\
    (fst (ClipboardImplementation_writeText h this data w) = Returned tt ->
     n = 5%nat) /\
    started (snd (ClipboardImplementation_writeText h this data w))
      = S (started w) /\
    exports (snd (ClipboardImplementation_writeText h this data w))
      = exports w.
Proof.
  destruct (writeText_effect h this data w) as (Hexp & Hst & n & Hn & Htr & Hok).
  exists n. auto.
Qed.

(** X8: when the write of the encoded text is rejected, [writeText] stops
    there: the writer is never closed and the child's status is never
    awaited. *)
Theorem writeText_failed_write_skips_close h this data w child e
    (Hspawn : command_spawn h (started w) (writeText_command this)
                = Returned child)
    (Hwriter : stdin_getWriter child = Returned tt)
    (Hwrite : writer_write child (text_encode h data) = Threw e) :
  exists w',
    ClipboardImplementation_writeText h this data w =
      (Threw (JsError "Error" ("Failed to read from clipboard: " +:+ cause e)),
       w') /\
    trace w' = trace w ++ [EvSpawn (writeText_command this); EvGetWriter;
                           EvWrite (text_encode h data)] /\
    ~ In EvClose (skipn (length (trace w)) (trace w')) /\
    ~ In EvStatus (skipn (length (trace w)) (trace w')).
Proof.
  rewrite writeText_catch, writeText_try_run, Hspawn. cbn zeta.
  rewrite Hwriter, Hwrite. eexists. split; [reflexivity|].
  assert (Htr : trace (emit (EvWrite (text_encode h data))
                   (emit EvGetWriter
                      (start (emit (EvSpawn (writeText_command this)) w))))
                = trace w ++ [EvSpawn (writeText_command this); EvGetWriter;
                              EvWrite (text_encode h data)]).
  { cbn [trace emit start]. rewrite <- !app_assoc. reflexivity. }
  split; [exact Htr|]. rewrite Htr.
  rewrite skipn_app, skipn_all, Nat.sub_diag. cbn [skipn app In].
  split; intros [H|[H|[H|[]]]]; discriminate H.
Qed.

Lemma writeText_failed_write_skips_close_witness :
  exists w',
    ClipboardImplementation_writeText no_display_host
      (linux_entry false false) "hello world" initial_world =
      (Threw (JsError "Error"
                "Failed to read from clipboard: Broken pipe (os error 32)"),
       w') /\
    ~ In EvClose (trace w').
Proof.
  destruct (writeText_failed_write_skips_close no_display_host
              (linux_entry false false) "hello world" initial_world
              deaf_child broken_pipe eq_refl eq_refl eq_refl)
    as (w' & Hrun & _ & Hclose & _).
  exists w'. split; [exact Hrun|exact Hclose].
Defined.

(** ** Further properties of module initialisation and the exports *)

Lemma registered_or_unregistered sys :
  In sys registered \/ In sys unregistered.
Proof. destruct sys; simpl; tauto. Qed.

Lemma initialize_registered_world h w :
  In (build_os h) registered ->
  exists entry,
    implementations_object
      (probe_result h (started w) "xsel")
      (probe_result h (S (started w)) "xsel") !! os_name (build_os h)
      = Some entry /\
    initialize h w =
      (Returned tt,
       {| started := S (S (started w));
          trace := trace w ++ [EvOutput (checkCommand h "xsel");
                               EvOutput (checkCommand h "xsel")];
          exports := bound_exports (new_Clipboard entry) |}).
Proof.
  intros Hos. unfold initialize. cbv [mbind M_bind].
  rewrite getImplementations_run.
  set (m := implementations_object _ _).
  assert (Hsome : exists entry, m !! os_name (build_os h) = Some entry).
  { unfold m. rewrite implementations_object_lookup.
    unfold registered in Hos. simpl in Hos.
    destruct Hos as [<-|[<-|[<-|[]]]]; eauto. }
  destruct Hsome as [entry Hentry]. exists entry.
  split; [exact Hentry|].
  unfold Clipboard_constructor. rewrite Hentry.
  cbv [mret M_ret assign_clipboard assign_readText assign_writeText
       mbind M_bind get_exports set_exports].
  cbn [started trace exports clipboard readText writeText start emit].
  rewrite <- app_assoc. reflexivity.
Qed.

Lemma call_readText_bound h w c :
  readText (exports w) = Some c ->
  call_readText h w = ClipboardImplementation_readText h (impl c) w.
Proof.
  intros Hc. unfold call_readText, Clipboard_readText.
  cbv [mbind M_bind get_exports]. rewrite Hc. reflexivity.
Qed.

Lemma call_writeText_bound h data w c :
  writeText (exports w) = Some c ->
  call_writeText h data w = ClipboardImplementation_writeText h (impl c) data w.
Proof.
  intros Hc. unfold call_writeText, Clipboard_writeText.
  cbv [mbind M_bind get_exports]. rewrite Hc. reflexivity.
Qed.

(** One call through bound exports: the bindings stay, one process is
    started, and an exception has the wrapped form. *)
Lemma run_call_bound h c w cr cw :
  readText (exports w) = Some cr ->
  writeText (exports w) = Some cw ->
  exports (snd (run_call h c w)) = exports w /\
  started (snd (run_call h c w)) = S (started w) /\
  forall e, thrown_error (fst (run_call h c w)) = Some e ->
    exists text,
      e = JsError "Error" ("Failed to read from clipboard: " +:+ text).
Proof.
  intros Hr Hw. destruct c as [|data]; unfold run_call.
  - rewrite (call_readText_bound h w cr Hr).
    pose proof (readText_effect h (impl cr) w) as Heff.
    pose proof (readText_throws_wrapped h (impl cr) w) as Hthr.
    destruct (ClipboardImplementation_readText h (impl cr) w) as [r w'].
    cbn [fst snd] in *. subst w'. repeat split.
    intros e He. destruct r as [text|x]; [discriminate|].
    injection He as <-. apply Hthr. reflexivity.
  - rewrite (call_writeText_bound h data w cw Hw).
    destruct (writeText_effect h (impl cw) data w) as (Hexp & Hst & _).
    pose proof (writeText_throws_wrapped h (impl cw) data w) as Hthr.
    destruct (ClipboardImplementation_writeText h (impl cw) data w) as [r w'].
    cbn [fst snd] in *. split; [exact Hexp|]. split; [exact Hst|].
    intros e He. destruct r as [u|x]; [discriminate|].
    injection He as <-. apply Hthr. reflexivity.
Qed.

Lemma run_call_exports h c w :
  exports (snd (run_call h c w)) = exports w.
Proof.
  destruct c as [|data]; unfold run_call.
  - unfold call_readText, Clipboard_readText. cbv [mbind M_bind get_exports].
    destruct (readText (exports w)) as [cr|]; [|reflexivity].
    pose proof (readText_effect h (impl cr) w) as Heff.
    destruct (ClipboardImplementation_readText h (impl cr) w) as [r w'].
    cbn [snd] in *. subst w'. reflexivity.
  - unfold call_writeText, Clipboard_writeText. cbv [mbind M_bind get_exports].
    destruct (writeText (exports w)) as [cw|]; [|reflexivity].
    destruct (writeText_effect h (impl cw) data w) as (Hexp & _).
    destruct (ClipboardImplementation_writeText h (impl cw) data w) as [r w'].
    exact Hexp.
Qed.

Lemma run_calls_cons h c calls w :
  run_calls h (c :: calls) w =
    (fst (run_call h c w) :: fst (run_calls h calls (snd (run_call h c w))),
     snd (run_calls h calls (snd (run_call h c w)))).
Proof.
  cbn [run_calls]. destruct (run_call h c w) as [r w1]. cbn [fst snd].
  destruct (run_calls h calls w1) as [rs w2]. reflexivity.
Qed.

(** X1: on linux, darwin or windows the initialisation block runs to its
    end: its promise is fulfilled, nothing is printed on the console, and
    [clipboard], [readText] and [writeText] are bound to one facade that
    holds the entry which the registry built by [getImplementations] has
    under the running system's name.  From then on a call of an export is
    a call of that entry's method. *)
Theorem registered_startup h w (Hos : In (build_os h) registered) :
  exists (implementations : ClipboardMap) w1 entry w',
    getImplementations h w = (Returned implementations, w1) /\
    implementations !! os_name (build_os h) = Some entry /\
    module_body h w = (Returned (Returned tt), w') /\
    os entry = build_os h /\
    exports w' = bound_exports (new_Clipboard entry) /\
    List.filter is_console (trace w') = List.filter is_console (trace w) /\
    forall w2, exports w2 = exports w' ->
      call_readText h w2 = ClipboardImplementation_readText h entry w2 /\
      forall data,
        call_writeText h data w2
          = ClipboardImplementation_writeText h entry data w2.
Proof.
  destruct (initialize_registered_world h w Hos) as (entry & Hentry & Hinit).
  rewrite getImplementations_run.
  unfold module_body. rewrite Hinit. eexists _, _, entry. eexists.
  split; [reflexivity|]. split; [exact Hentry|].
  split; [reflexivity|].
  split; [apply (implementations_entry_commands _ _ _ _ Hentry)|].
  split; [reflexivity|]. split.
  - cbn [trace]. rewrite List.filter_app. simpl. apply app_nil_r.
  - intros w2 Hw2. cbn [exports] in Hw2. split.
    + apply (call_readText_bound h w2 (new_Clipboard entry)).
      rewrite Hw2. reflexivity.
    + intros data. apply (call_writeText_bound h data w2 (new_Clipboard entry)).
      rewrite Hw2. reflexivity.
Qed.

Lemma registered_startup_witness :
  exists entry w',
    module_body (sample_host darwin ["pbpaste"; "pbcopy"]
                   (list_byte_of_string "hello world")) initial_world
      = (Returned (Returned tt), w') /\
    readCommand entry = ["pbpaste"] /\
    writeCommand entry = ["pbcopy"] /\
    exports w' = bound_exports (new_Clipboard entry) /\
    fst (call_readText (sample_host darwin ["pbpaste"; "pbcopy"]
                          (list_byte_of_string "hello world")) w')
      = Returned "hello world".
Proof.
  destruct (registered_startup
              (sample_host darwin ["pbpaste"; "pbcopy"]
                 (list_byte_of_string "hello world")) initial_world)
    as (m & w1 & entry & w' & Hreg & Hentry & Hload & _ & Hexp & _).
  - simpl. tauto.
  - exists entry, w'. split; [exact Hload|].
    injection Hreg as <- _.
    rewrite (implementations_object_lookup _ _ darwin) in Hentry.
    injection Hentry as <-.
    split; [reflexivity|]. split; [reflexivity|]. split; [exact Hexp|].
    injection Hload as <-. reflexivity.
Defined.

(** X2: on every operating system of the union, evaluating the module
    starts exactly two processes, both of them path searches for [xsel],
    whether or not the system has a registry entry. *)
Theorem startup_probes_xsel_twice h w :
  exists settled w',
    module_body h w = (Returned settled, w') /\
    started w' = S (S (started w)) /\
    List.filter is_process_event (trace w') =
      List.filter is_process_event (trace w) ++
      [EvOutput (checkCommand h "xsel"); EvOutput (checkCommand h "xsel")].
Proof.
  unfold module_body.
  destruct (registered_or_unregistered (build_os h)) as [Hos|Hos].
  - destruct (initialize_registered_world h w Hos) as (entry & _ & Hinit).
    rewrite Hinit. eexists _, _. split; [reflexivity|].
    split; [reflexivity|]. cbn [trace]. rewrite List.filter_app. reflexivity.
  - rewrite (initialize_unregistered h w Hos).
    eexists _, _. split; [reflexivity|]. split; [reflexivity|].
    cbn [trace start emit]. rewrite !List.filter_app. simpl.
    rewrite app_nil_r, <- app_assoc. reflexivity.
Qed.



(** X4: calls never rebind the exports, whatever they end with; and once
    [readText] and [writeText] are bound, every call starts exactly one
    process. *)
Theorem calls_keep_bindings h calls w :
  exports (snd (run_calls h calls w)) = exports w /\
  length (fst (run_calls h calls w)) = length calls /\
  (is_Some (readText (exports w)) -> is_Some (writeText (exports w)) ->
   started (snd (run_calls h calls w)) = (started w + length calls)%nat).
Proof.
  revert w. induction calls as [|c calls IH]; intros w.
  - cbn [run_calls fst snd length]. repeat split. intros _ _. lia.
  - rewrite run_calls_cons. cbn [fst snd length].
    destruct (IH (snd (run_call h c w))) as (Hexp & Hlen & Hst).
    pose proof (run_call_exports h c w) as Hstep.
    split; [congruence|]. split; [congruence|].
    intros [cr Hr] [cw Hw].
    destruct (run_call_bound h c w cr cw Hr Hw) as (_ & Hone & _).
    rewrite Hst, Hone; [lia| |]; rewrite Hstep; eauto.
Qed.

Lemma calls_keep_bindings_witness :
  started (snd (run_calls (sample_host darwin ["pbpaste"] [])
                  [CallReadText; CallWriteText "hello"; CallReadText]
                  (snd (module_body (sample_host darwin ["pbpaste"] [])
                          initial_world))))
  = 5%nat.
Proof.
  refine (proj2 (proj2 (calls_keep_bindings (sample_host darwin ["pbpaste"] [])
            [CallReadText; CallWriteText "hello"; CallReadText]
            (snd (module_body (sample_host darwin ["pbpaste"] [])
                    initial_world)))) _ _); eexists; reflexivity.
Defined.

(** X5: once the exports are bound, whatever a call of [readText] or
    [writeText] throws is a plain [Error] whose message starts with
    ["Failed to read from clipboard: "], for writes as for reads. *)
Theorem bound_calls_throw_wrapped_errors h calls w
    (Hread : is_Some (readText (exports w)))
    (Hwrite : is_Some (writeText (exports w))) :
  Forall (fun r => forall e, thrown_error r = Some e ->
            exists text,
              e = JsError "Error" ("Failed to read from clipboard: " +:+ text))
         (fst (run_calls h calls w)).
Proof.
  revert w Hread Hwrite. induction calls as [|c calls IH];
    intros w [cr Hr] [cw Hw].
  - constructor.
  - rewrite run_calls_cons. cbn [fst].
    destruct (run_call_bound h c w cr cw Hr Hw) as (Hexp & _ & Hthr).
    constructor; [exact Hthr|].
    apply IH; rewrite Hexp; eauto.
Qed.

Lemma bound_calls_throw_wrapped_errors_witness :
  Forall (fun r => forall e, thrown_error r = Some e ->
            exists text,
              e = JsError "Error" ("Failed to read from clipboard: " +:+ text))
    (fst (run_calls (sample_host darwin ["pbpaste"] [])
            [CallReadText; CallWriteText "hello"]
            (snd (module_body (sample_host darwin ["pbpaste"] [])
                    initial_world)))) /\
  thrown_error
    (nth 1 (fst (run_calls (sample_host darwin ["pbpaste"] [])
                   [CallReadText; CallWriteText "hello"]
                   (snd (module_body (sample_host darwin ["pbpaste"] [])
                           initial_world))))
         (ReadOutcome (Returned "")))
  = Some (JsError "Error"
      "Failed to read from clipboard: Failed to spawn 'pbcopy': entity not found").
Proof.
  split; [|reflexivity].
  apply (bound_calls_throw_wrapped_errors (sample_host darwin ["pbpaste"] [])
           [CallReadText; CallWriteText "hello"]
           (snd (module_body (sample_host darwin ["pbpaste"] [])
                   initial_world)));
    eexists; reflexivity.
Defined.

(** X6: after initialisation on linux, darwin or windows, a call of
    [readText] asks the host for one thing, the output of the system's
    read command (program and arguments split from the registered array,
    standard output and error piped), and a call of [writeText] first
    spawns the system's write command with standard input piped; on linux
    the read command is the one the first probe chose and the write
    command the one the second probe chose. *)
Theorem exports_run_the_system_commands h w
    (Hos : In (build_os h) registered) :
  exists w',
    module_body h w = (Returned (Returned tt), w') /\
    trace (snd (call_readText h w')) =
      trace w' ++
      [EvOutput (system_read_command (build_os h)
                   (probe_result h (started w) "xsel"))] /\
    forall data, exists n,
      trace (snd (call_writeText h data w')) =
        trace w' ++
        EvSpawn (system_write_command (build_os h)
                   (probe_result h (S (started w)) "xsel"))
        :: firstn n [EvGetWriter; EvWrite (text_encode h data);
                     EvClose; EvStatus].
Proof.
  destruct (initialize_registered_world h w Hos) as (entry & Hentry & Hinit).
  destruct (implementations_entry_commands _ _ _ _ Hentry)
    as (_ & Hrc & Hwc).
  unfold module_body. rewrite Hinit. eexists. split; [reflexivity|].
  set (w' := {| started := _; trace := _; exports := _ |}).
  split.
  - rewrite (call_readText_bound h w' (new_Clipboard entry) eq_refl).
    rewrite readText_effect. cbn [impl trace start emit]. rewrite Hrc.
    reflexivity.
  - intros data.
    rewrite (call_writeText_bound h data w' (new_Clipboard entry) eq_refl).
    destruct (writeText_effect h entry data w')
      as (_ & _ & n & [Hn _] & Htr & _).
    cbn [impl]. rewrite Htr. unfold write_requests. rewrite Hwc.
    destruct n as [|n]; [lia|]. exists n. reflexivity.
Qed.

Lemma exports_run_the_system_commands_witness :
  exists w',
    module_body (sample_host windows ["powershell"] []) initial_world
      = (Returned (Returned tt), w') /\
    trace (snd (call_readText (sample_host windows ["powershell"] []) w')) =
      trace w' ++
      [EvOutput {| program := Some "powershell";
                   args := ["-noprofile"; "-command"; "Get-Clipboard"];
                   stdin := None; stdout := Some piped;
                   stderr := Some piped |}].
Proof.
  destruct (exports_run_the_system_commands
              (sample_host windows ["powershell"] []) initial_world)
    as (w' & Hload & Hread & _).
  - simpl. tauto.
  - exists w'. split; [exact Hload|exact Hread].
Defined.

Lemma replace_all_CR_no_CR data : count_CR (replace_all_CR data) = 0%nat.
Proof.
  induction data as [|c rest IH]; [reflexivity|].
  cbn [replace_all_CR]. destruct (Ascii.eqb c CR) eqn:E; [exact IH|].
  cbn [count_CR]. rewrite E. exact IH.
Qed.

Lemma replace_LF_at_end_count_CR data :
  (count_CR (replace_LF_at_end data) <= count_CR data)%nat.
Proof.
  induction data as [|c rest IH]; [reflexivity|].
  cbn [replace_LF_at_end]. destruct rest as [|d rest'].
  - destruct (Ascii.eqb c LF); cbn [count_CR];
      destruct (Ascii.eqb c CR); lia.
  - cbn [count_CR] in *. destruct (Ascii.eqb c CR); lia.
Qed.

Lemma windows_postProcess_no_CR data :
  count_CR (windows_postProcess data) = 0%nat.
Proof.
  unfold windows_postProcess.
  pose proof (replace_LF_at_end_count_CR (replace_all_CR data)) as Hle.
  rewrite replace_all_CR_no_CR in Hle. lia.
Qed.

(** X15: every run of [commandExists], whether the probe completes, fails
    or cannot be started, starts one process and asks for one thing: the
    output of [where] on Windows and of [which] on every other system,
    given the command name alone, with standard output and error
    discarded; the exported bindings are not touched. *)
Theorem commandExists_runs_one_path_search h command w :
  trace (snd (commandExists h command w)) =
    trace w ++
    [EvOutput {| program := Some (if decide (build_os h = windows)
                                  then "where" else "which");
                 args := [command];
                 stdin := None; stdout := Some null; stderr := Some null |}] /\
  started (snd (commandExists h command w)) = S (started w) /\
  exports (snd (commandExists h command w)) = exports w.
Proof.
  rewrite commandExists_run. cbn [snd trace started exports start emit].
  repeat split. unfold checkCommand.
  destruct (decide (build_os h = windows)); reflexivity.
Qed.

(** X11: after initialisation on linux, darwin or windows, when the
    system's read command completes, the exported [readText] returns the
    decoded standard output as it is on linux and darwin, and passed
    through the post-processing on windows, where the text returned
    therefore never contains a carriage return. *)
Theorem exported_readText_result h w o
    (Hos : In (build_os h) registered)
    (Hrun : command_output h (S (S (started w)))
              (system_read_command (build_os h)
                 (probe_result h (started w) "xsel")) = Returned o) :
  exists w',
    module_body h w = (Returned (Returned tt), w') /\
    fst (call_readText h w') =
      Returned (if decide (build_os h = windows)
                then windows_postProcess (text_decode h (out_stdout o))
                else text_decode h (out_stdout o)) /\
    (build_os h = windows ->
     forall text, fst (call_readText h w') = Returned text ->
       count_CR text = 0%nat).
Proof.
  destruct (initialize_registered_world h w Hos) as (entry & Hentry & Hinit).
  destruct (implementations_entry_commands _ _ _ _ Hentry) as (_ & Hrc & _).
  unfold module_body. rewrite Hinit. eexists. split; [reflexivity|].
  set (w' := {| started := _; trace := _; exports := _ |}).
  rewrite (call_readText_bound h w' (new_Clipboard entry) eq_refl).
  rewrite readText_run. cbn [fst impl started w'].
  rewrite Hrc, Hrun.
  assert (Hpost : postProcess entry =
                    if decide (build_os h = windows)
                    then Some windows_postProcess else None).
  { rewrite implementations_object_lookup in Hentry.
    unfold registered in Hos. simpl in Hos.
    destruct (build_os h); try (exfalso; intuition discriminate);
      injection Hentry as <-; reflexivity. }
  rewrite Hpost. split.
  - destruct (decide (build_os h = windows)); reflexivity.
  - intros Hwin text. destruct (decide (build_os h = windows)); [|contradiction].
    intros [= <-]. apply windows_postProcess_no_CR.
Qed.

Lemma exported_readText_result_witness :
  exists w',
    module_body
      (sample_host windows ["powershell"]
         (list_byte_of_string ("line1" +:+ CRLF +:+ "line2" +:+ CRLF)))
      initial_world = (Returned (Returned tt), w') /\
    fst (call_readText
           (sample_host windows ["powershell"]
              (list_byte_of_string ("line1" +:+ CRLF +:+ "line2" +:+ CRLF)))
           w')
      = Returned ("line1" +:+ String LF "line2").
Proof.
  destruct (exported_readText_result
              (sample_host windows ["powershell"]
                 (list_byte_of_string ("line1" +:+ CRLF +:+ "line2" +:+ CRLF)))
              initial_world
              {| code := 0;
                 out_stdout :=
                   list_byte_of_string ("line1" +:+ CRLF +:+ "line2" +:+ CRLF);
                 out_stderr := [] |})
    as (w' & Hload & Hread & _).
  - simpl. tauto.
  - reflexivity.
  - exists w'. split; [exact Hload|exact Hread].
Defined.
